(** * vestiar: the keypad master-code API ([vestiar_code_api.h])

    A shallow embedding of the header that serves [/api/code] on the
    ESP8266 firmware: the code store ([loadCode], [saveCode]) over one
    LittleFS file, the three request handlers and the route registration,
    followed by the properties of the handlers.

    Conventions of the embedding:
    - an Arduino [String] and a [const char*] are modelled by the characters
      before the terminating NUL, as a [string];
    - the globals ([masterCode], the file system, the web server, the serial
      port) are the fields of one record, threaded through a state monad;
    - ArduinoJson's parser is not part of the header: it is a variable of
      the development, and so is the representation of JSON floats;
    - [lockState] is declared by the header and never used: it is left out;
    - [LittleFS.open] may refuse to hand out a file: the outcome is a field
      of the state, which the environment may change between requests. *)

From Stdlib Require Import String Ascii List ZArith Bool Arith Lia.
From Stdlib Require Import DecimalString.
Import ListNotations.

Local Open Scope list_scope.
Local Open Scope string_scope.

(** ** Text helpers *)

(** The double-quote character of the C++ literals. *)
Definition DQ : string := String (ascii_of_nat 34) EmptyString.

(** [quoted s] is [s] between two double quotes. *)
Definition quoted (s : string) : string := DQ ++ s ++ DQ.

(** Decimal text of a number, as [printf] and ArduinoJson write it. *)
Definition string_of_Z (z : Z) : string :=
  NilZero.string_of_int (Z.to_int z).

Definition string_of_nat (n : nat) : string := string_of_Z (Z.of_nat n).

(** ** Integers of the target

    [String::length()] is an [unsigned int]; the handler casts it to [int]
    (32 bits, two's complement). *)

Definition INT_MAX : Z := 2147483647.

Definition int_of_unsigned (u : Z) : Z :=
  let r := (u mod 2 ^ 32)%Z in
  if (r <=? INT_MAX)%Z then r else (r - 2 ^ 32)%Z.

(** ** JSON documents (ArduinoJson) *)

Section Json.

(** Floating-point payloads stay abstract. *)
Variable JsonFloat : Type.
Variable serializeFloat : JsonFloat -> string.

#[local] Unset Elimination Schemes.

Inductive JsonVariant : Type :=
| JNull
| JBool (b : bool)
| JInt (z : Z)
| JFloat (f : JsonFloat)
| JString (s : string)
| JArray (elems : list JsonVariant)
| JObject (members : list (string * JsonVariant)).

#[local] Set Elimination Schemes.

(** [DynamicJsonDocument d(capacity)]: a fresh document is null.  The pool
    is not modelled: the documents the handlers build hold at most two
    scalars and a copy of a string of at most eight characters, well within
    the 128 bytes they ask for.  What is stated of [saveCode] on its own is
    stated for strings of that length. *)
Definition DynamicJsonDocument (capacity : nat) : JsonVariant := JNull.

Fixpoint lookupMember (key : string) (ms : list (string * JsonVariant))
  : option JsonVariant :=
  match ms with
  | [] => None
  | (k, v) :: rest => if k =? key then Some v else lookupMember key rest
  end.

(** [d[key]] read: the member of an object, null for anything else. *)
Definition getMember (d : JsonVariant) (key : string) : JsonVariant :=
  match d with
  | JObject ms =>
      match lookupMember key ms with
      | Some v => v
      | None => JNull
      end
  | _ => JNull
  end.

Fixpoint replaceMember (key : string) (v : JsonVariant)
         (ms : list (string * JsonVariant)) : list (string * JsonVariant) :=
  match ms with
  | [] => [(key, v)]
  | (k, x) :: rest =>
      if k =? key then (k, v) :: rest else (k, x) :: replaceMember key v rest
  end.

(** [d[key] = v]: a null document becomes an object; an existing member is
    overwritten in place, a new one is appended. *)
Definition setMember (d : JsonVariant) (key : string) (v : JsonVariant)
  : JsonVariant :=
  match d with
  | JNull => JObject [(key, v)]
  | JObject ms => JObject (replaceMember key v ms)
  | _ => d
  end.

(** [variant.as<const char*>()]: the string of a string variant, the null
    pointer otherwise. *)
Definition as_cstr (v : JsonVariant) : option string :=
  match v with
  | JString s => Some s
  | _ => None
  end.

(** [variant | dflt] with a [const char*] default: the overload of
    [operator|] for C strings. *)
Definition cstr_or (v : JsonVariant) (dflt : string) : string :=
  match as_cstr v with
  | Some s => s
  | None => dflt
  end.

(** [variant | nullptr]: the default has type [std::nullptr_t], so the call
    resolves to the generic [operator|] at that type and not to the overload
    for [const char*].  Its value is [as<std::nullptr_t>()] for a null
    variant and the default for every other one: the null pointer both
    times, which stays null when it initialises a [const char*]. *)
Definition or_nullptr (v : JsonVariant) : option string :=
  match v with
  | JNull => None
  | _ => None
  end.

(** ArduinoJson's text formatter escapes the quote, the backslash and the
    five control characters that have a short form. *)
Definition escapeChar (c : ascii) : string :=
  let n := nat_of_ascii c in
  if Nat.eqb n 34 then "\" ++ DQ
  else if Nat.eqb n 92 then "\\"
  else if Nat.eqb n 8 then "\b"
  else if Nat.eqb n 12 then "\f"
  else if Nat.eqb n 10 then "\n"
  else if Nat.eqb n 13 then "\r"
  else if Nat.eqb n 9 then "\t"
  else String c EmptyString.

Fixpoint escapeString (s : string) : string :=
  match s with
  | EmptyString => EmptyString
  | String c rest => escapeChar c ++ escapeString rest
  end.

Definition writeString (s : string) : string := quoted (escapeString s).

(** [serializeJson]: the compact form, members in insertion order. *)
Fixpoint serializeJson (v : JsonVariant) : string :=
  match v with
  | JNull => "null"
  | JBool true => "true"
  | JBool false => "false"
  | JInt z => string_of_Z z
  | JFloat f => serializeFloat f
  | JString s => writeString s
  | JArray elems =>
      "[" ++
      (fix items (l : list JsonVariant) : string :=
         match l with
         | [] => ""
         | x :: rest =>
             serializeJson x ++
             match rest with
             | [] => ""
             | _ :: _ => "," ++ items rest
             end
         end) elems
      ++ "]"
  | JObject members =>
      "{" ++
      (fix fields (l : list (string * JsonVariant)) : string :=
         match l with
         | [] => ""
         | (k, x) :: rest =>
             writeString k ++ ":" ++ serializeJson x ++
             match rest with
             | [] => ""
             | _ :: _ => "," ++ fields rest
             end
         end) members
      ++ "}"
  end.

End Json.

Arguments JNull {JsonFloat}.
Arguments JBool {JsonFloat} b.
Arguments JInt {JsonFloat} z.
Arguments JFloat {JsonFloat} f.
Arguments JString {JsonFloat} s.
Arguments JArray {JsonFloat} elems.
Arguments JObject {JsonFloat} members.
Arguments DynamicJsonDocument {JsonFloat} capacity.
Arguments lookupMember {JsonFloat} key ms.
Arguments getMember {JsonFloat} d key.
Arguments replaceMember {JsonFloat} key v ms.
Arguments setMember {JsonFloat} d key v.
Arguments as_cstr {JsonFloat} v.
Arguments or_nullptr {JsonFloat} v.
Arguments cstr_or {JsonFloat} v dflt.
Arguments serializeJson {JsonFloat} serializeFloat v.

(** ** The state of the device *)

(** A response as it leaves [ESP8266WebServer::send]: the status, the
    content type, the headers queued with [sendHeader], and the body. *)
Record Response : Type := mkResponse {
  status : Z;
  content_type : string;
  headers : list (string * string);
  body : string
}.

(** The globals the header reads and writes.
    - [masterCode]: the [extern String masterCode];
    - [files]: the files of LittleFS, path and contents;
    - [open_ok]: whether [LittleFS.open] hands out a valid [File];
    - [currentArgs]: the arguments of the request being served; the server
      stores a request body under the name [plain];
    - [responseHeaders]: the headers queued for the next response;
    - [sent]: the responses written so far, oldest first;
    - [serial]: what was printed on the serial port, oldest first. *)
Record World : Type := mkWorld {
  masterCode : string;
  files : list (string * string);
  open_ok : bool;
  currentArgs : list (string * string);
  responseHeaders : list (string * string);
  sent : list Response;
  serial : list string
}.

Definition set_masterCode (c : string) (w : World) : World :=
  mkWorld c (files w) (open_ok w) (currentArgs w) (responseHeaders w)
          (sent w) (serial w).

Definition set_files (fs : list (string * string)) (w : World) : World :=
  mkWorld (masterCode w) fs (open_ok w) (currentArgs w) (responseHeaders w)
          (sent w) (serial w).

Definition set_open_ok (b : bool) (w : World) : World :=
  mkWorld (masterCode w) (files w) b (currentArgs w) (responseHeaders w)
          (sent w) (serial w).

Definition set_currentArgs (a : list (string * string)) (w : World) : World :=
  mkWorld (masterCode w) (files w) (open_ok w) a (responseHeaders w)
          (sent w) (serial w).

Definition set_responseHeaders (h : list (string * string)) (w : World)
  : World :=
  mkWorld (masterCode w) (files w) (open_ok w) (currentArgs w) h
          (sent w) (serial w).

Definition set_sent (r : list Response) (w : World) : World :=
  mkWorld (masterCode w) (files w) (open_ok w) (currentArgs w)
          (responseHeaders w) r (serial w).

Definition set_serial (s : list string) (w : World) : World :=
  mkWorld (masterCode w) (files w) (open_ok w) (currentArgs w)
          (responseHeaders w) (sent w) s.

(** ** The state monad of the firmware *)

Definition M (A : Type) : Type := World -> A * World.

Definition ret {A : Type} (a : A) : M A := fun w => (a, w).

Definition bind {A B : Type} (m : M A) (k : A -> M B) : M B :=
  fun w => let (a, w') := m w in k a w'.

Definition gets {A : Type} (f : World -> A) : M A := fun w => (f w, w).

Definition modify (f : World -> World) : M unit := fun w => (tt, f w).

(** The state a computation ends in. *)
Definition exec {A : Type} (m : M A) (w : World) : World := snd (m w).

(** The value a computation returns. *)
Definition eval {A : Type} (m : M A) (w : World) : A := fst (m w).

Declare Scope fw_scope.
Delimit Scope fw_scope with fw.

Notation "x <- m ;; k" := (bind m (fun x => k))
  (at level 61, m at next level, right associativity) : fw_scope.
Notation "m ;; k" := (bind m (fun _ => k))
  (at level 61, right associativity) : fw_scope.

Local Open Scope fw_scope.

(** ** Association lists (request arguments, files) *)

Fixpoint assoc (key : string) (l : list (string * string)) : option string :=
  match l with
  | [] => None
  | (k, v) :: rest => if k =? key then Some v else assoc key rest
  end.

Fixpoint assoc_set (key value : string) (l : list (string * string))
  : list (string * string) :=
  match l with
  | [] => [(key, value)]
  | (k, v) :: rest =>
      if k =? key then (k, value) :: rest
      else (k, v) :: assoc_set key value rest
  end.

(** ** Serial port *)

Definition Serial_print (text : string) : M unit :=
  modify (fun w => set_serial (serial w ++ [text])%list w).

(** ** LittleFS *)

Inductive OpenMode : Type :=
| Mode_r   (* "r" *)
| Mode_w.  (* "w" *)

(** A valid [File] is named by its path; [None] is the [File] that tests
    false. *)
Definition File : Type := option string.

Definition LittleFS_exists (path : string) : M bool :=
  gets (fun w => match assoc path (files w) with
                 | Some _ => true
                 | None => false
                 end).

(** [LittleFS.open]: reading needs the file to exist; writing creates it or
    empties it. *)
Definition LittleFS_open (path : string) (mode : OpenMode) : M File :=
  fun w =>
    if negb (open_ok w) then (None, w)
    else
      match mode with
      | Mode_r =>
          match assoc path (files w) with
          | Some _ => (Some path, w)
          | None => (None, w)
          end
      | Mode_w => (Some path, set_files (assoc_set path "" (files w)) w)
      end.

(** The contents a reader of the file sees. *)
Definition File_read (path : string) : M string :=
  gets (fun w => match assoc path (files w) with
                 | Some text => text
                 | None => ""
                 end).

(** Text written to the file goes after what it holds. *)
Definition File_write (path : string) (text : string) : M unit :=
  modify (fun w =>
            let old := match assoc path (files w) with
                       | Some t => t
                       | None => ""
                       end in
            set_files (assoc_set path (old ++ text) (files w)) w).

Definition File_close (path : string) : M unit := ret tt.

(** ** ESP8266WebServer *)

Definition server_hasArg (name : string) : M bool :=
  gets (fun w => match assoc name (currentArgs w) with
                 | Some _ => true
                 | None => false
                 end).

Definition server_arg (name : string) : M string :=
  gets (fun w => match assoc name (currentArgs w) with
                 | Some v => v
                 | None => ""
                 end).

Definition server_sendHeader (name value : string) : M unit :=
  modify (fun w => set_responseHeaders
                     (responseHeaders w ++ [(name, value)])%list w).

(** [server.send]: the queued headers go out with the response and the
    queue is emptied. *)
Definition server_send (code : Z) (ctype : string) (content : string)
  : M unit :=
  modify (fun w =>
            set_responseHeaders []
              (set_sent (sent w ++ [mkResponse code ctype (responseHeaders w)
                                               content])%list w)).

(** ** C++ literals

    The string literals of the header are full of escaped double quotes.
    They are written here with an apostrophe for each escaped double quote,
    which [cpp] turns back into the double quote; no literal of the header
    holds an apostrophe of its own. *)

Fixpoint cpp (s : string) : string :=
  match s with
  | EmptyString => EmptyString
  | String c rest =>
      String (if Nat.eqb (nat_of_ascii c) 39 then ascii_of_nat 34 else c)
             (cpp rest)
  end.

(** The line feed that ends the [printf] format, and the line end of
    [println]. *)
Definition LF : string := String (ascii_of_nat 10) EmptyString.
Definition CRLF : string := String (ascii_of_nat 13) LF.

Definition Serial_println (text : string) : M unit :=
  Serial_print (text ++ CRLF).

(** ** The header *)

Inductive HTTPMethod : Type :=
| HTTP_ANY | HTTP_GET | HTTP_HEAD | HTTP_POST | HTTP_PUT | HTTP_PATCH
| HTTP_DELETE | HTTP_OPTIONS.

Definition HTTPMethod_eqb (a b : HTTPMethod) : bool :=
  match a, b with
  | HTTP_ANY, HTTP_ANY | HTTP_GET, HTTP_GET | HTTP_HEAD, HTTP_HEAD
  | HTTP_POST, HTTP_POST | HTTP_PUT, HTTP_PUT | HTTP_PATCH, HTTP_PATCH
  | HTTP_DELETE, HTTP_DELETE | HTTP_OPTIONS, HTTP_OPTIONS => true
  | _, _ => false
  end.

(** What [server.on(uri, method, fn)] registers. *)
Record Route : Type := mkRoute {
  route_uri : string;
  route_method : HTTPMethod;
  route_fn : M unit
}.

(** A request as the server hands it to a route. *)
Record Request : Type := mkRequest {
  req_method : HTTPMethod;
  req_uri : string;
  req_args : list (string * string)
}.

(** One request of a run, with what [LittleFS.open] will answer while it
    is served. *)
Record Event : Type := mkEvent {
  ev_request : Request;
  ev_open_ok : bool
}.

(** ** Vocabulary of the specification *)

(** The three headers every response of the API is to carry. *)
Definition CORS_HEADERS : list (string * string) :=
  [ ("Access-Control-Allow-Origin", "*");
    ("Access-Control-Allow-Methods", "GET,POST,OPTIONS");
    ("Access-Control-Allow-Headers", "Content-Type") ].

(** An ASCII decimal digit. *)
Definition is_digit (c : ascii) : Prop :=
  (48 <= nat_of_ascii c <= 57)%nat.

(** A well-formed master code, in the words of the specification: a string
    of 4 to 8 ASCII decimal digits. *)
Definition valid_code (s : string) : Prop :=
  (4 <= String.length s <= 8)%nat /\
  Forall is_digit (list_ascii_of_string s).

(** The data-model invariant: no code, or a well-formed one. *)
Definition code_ok (s : string) : Prop := s = "" \/ valid_code s.

(** A string field of a request document, the empty string when the member
    is missing or is not a string. *)
Definition field {JsonFloat : Type} (d : JsonVariant JsonFloat)
           (key : string) : string :=
  cstr_or (getMember d key) "".

(** The JSON response that goes out of state [w] with the CORS headers. *)
Definition json_response (w : World) (code : Z) (content : string)
  : Response :=
  mkResponse code "application/json" (responseHeaders w ++ CORS_HEADERS)%list
             content.

(** The state after a response [r] has been sent from [w]. *)
Definition responded (r : Response) (w : World) : World :=
  set_responseHeaders [] (set_sent (sent w ++ [r])%list w).

(** The text of a JSON boolean. *)
Definition string_of_bool (b : bool) : string :=
  if b then "true" else "false".

(** ** Sample requests and files

    Documents without floats, and a parser that knows the texts below; they
    instantiate the variables of the development on concrete inputs. *)

Module Sample.

Definition Float : Type := Empty_set.

Definition serializeFloat (f : Float) : string := match f with end.

Definition Doc : Type := JsonVariant Float.

(** First-time setup, without a [current] member. *)
Definition body_first : string := cpp "{'new':'1234','confirm':'1234'}".
Definition doc_first : Doc :=
  JObject [("new", JString "1234"); ("confirm", JString "1234")].

(** A change with the right current code. *)
Definition body_change : string :=
  cpp "{'current':'1234','new':'56789','confirm':'56789'}".
Definition doc_change : Doc :=
  JObject [("current", JString "1234"); ("new", JString "56789");
           ("confirm", JString "56789")].

(** A change with a wrong current code. *)
Definition body_wrong : string :=
  cpp "{'current':'0000','new':'56789','confirm':'56789'}".
Definition doc_wrong : Doc :=
  JObject [("current", JString "0000"); ("new", JString "56789");
           ("confirm", JString "56789")].

(** A wrong current code together with a new code that is too short. *)
Definition body_wrong_short : string :=
  cpp "{'current':'0000','new':'12','confirm':'12'}".
Definition doc_wrong_short : Doc :=
  JObject [("current", JString "0000"); ("new", JString "12");
           ("confirm", JString "12")].

(** A confirmation that differs from the new code. *)
Definition body_mismatch : string :=
  cpp "{'current':'1234','new':'56789','confirm':'5678'}".
Definition doc_mismatch : Doc :=
  JObject [("current", JString "1234"); ("new", JString "56789");
           ("confirm", JString "5678")].

(** A new code that is a number, not a string. *)
Definition body_number : string := cpp "{'new':1234,'confirm':1234}".
Definition doc_number : Doc :=
  JObject [("new", JInt 1234); ("confirm", JInt 1234)].

(** The record file after the code 1234 was saved. *)
Definition file_1234 : string := cpp "{'code':'1234'}".
Definition doc_file_1234 : Doc := JObject [("code", JString "1234")].

(** A record file without a string under [code]. *)
Definition file_no_code : string := cpp "{'code':1234}".
Definition doc_file_no_code : Doc := JObject [("code", JInt 1234)].

Definition table : list (string * Doc) :=
  [ (body_first, doc_first); (body_change, doc_change);
    (body_wrong, doc_wrong); (body_wrong_short, doc_wrong_short);
    (body_mismatch, doc_mismatch); (body_number, doc_number);
    (file_1234, doc_file_1234); (file_no_code, doc_file_no_code) ].

(** Parses the texts of [table]; anything else is a parse error. *)
Definition deserializeJson (capacity : nat) (input : string) : option Doc :=
  lookupMember input table.

(** A device with the given code and request body, no file yet. *)
Definition world (code : string) (args : list (string * string)) : World :=
  mkWorld code [] true args [] [] [].

(** A device whose record file holds [text]. *)
Definition world_with_file (text : string) : World :=
  mkWorld "" [("/code.json", text)] true [] [] [] [].

Definition post (content : string) : Request :=
  mkRequest HTTP_POST "/api/code" [("plain", content)].

Definition get : Request := mkRequest HTTP_GET "/api/code" [].

Definition options : Request := mkRequest HTTP_OPTIONS "/api/code" [].

End Sample.

Section Firmware.

Variable JsonFloat : Type.
Variable serializeFloat : JsonFloat -> string.

(** [deserializeJson(d, input)] for a document of the given capacity:
    the parsed document, or [None] for any [DeserializationError]. *)
Variable deserializeJson : nat -> string -> option (JsonVariant JsonFloat).

Definition FILE_CODE : string := "/code.json".

Definition sendJsonWithCORS (code : Z) (content : string) : M unit :=
  server_sendHeader "Access-Control-Allow-Origin" "*" ;;
  server_sendHeader "Access-Control-Allow-Methods" "GET,POST,OPTIONS" ;;
  server_sendHeader "Access-Control-Allow-Headers" "Content-Type" ;;
  server_send code "application/json" content.

Definition loadCode : M bool :=
  present <- LittleFS_exists FILE_CODE ;;
  if negb present then ret false else
  f <- LittleFS_open FILE_CODE Mode_r ;;
  match f with
  | None => ret false
  | Some fh =>
      text <- File_read fh ;;
      match deserializeJson 128 text with
      | None => File_close fh ;; ret false
      | Some d =>
          File_close fh ;;
          match or_nullptr (getMember d "code") with
          | None => ret false
          | Some c =>
              modify (set_masterCode c) ;;
              len <- gets (fun w => String.length (masterCode w)) ;;
              Serial_print ("Loaded keypad masterCode (" ++ string_of_nat len
                            ++ " chars)" ++ LF) ;;
              ret true
          end
      end
  end.

Definition saveCode (code : string) : M bool :=
  let d := setMember (DynamicJsonDocument 128) "code" (JString code) in
  f <- LittleFS_open FILE_CODE Mode_w ;;
  match f with
  | None => ret false
  | Some fh =>
      File_write fh (serializeJson serializeFloat d) ;;
      File_close fh ;;
      modify (set_masterCode code) ;;
      ret true
  end.

Definition handleCodeGet : M unit :=
  len <- gets (fun w => String.length (masterCode w)) ;;
  let d := setMember (DynamicJsonDocument 128) "set" (JBool (0 <? len)%nat) in
  let d := setMember d "len" (JInt (int_of_unsigned (Z.of_nat len))) in
  let out := serializeJson serializeFloat d in
  sendJsonWithCORS 200 out.

(** The lambda [isDigits] of [handleCodePost].  The two comparisons reject
    every character outside ['0'..'9'] whether [char] is signed or not. *)
Fixpoint isDigits (s : string) : bool :=
  match s with
  | EmptyString => true
  | String c rest =>
      if (nat_of_ascii c <? 48)%nat || (57 <? nat_of_ascii c)%nat then false
      else isDigits rest
  end.

Definition handleCodePost : M unit :=
  has_body <- server_hasArg "plain" ;;
  if negb has_body
  then sendJsonWithCORS 400 (cpp "{'ok':false,'err':'no_body'}") else
  plain <- server_arg "plain" ;;
  match deserializeJson 256 plain with
  | None => sendJsonWithCORS 400 (cpp "{'ok':false,'err':'json'}")
  | Some d =>
      let current := cstr_or (getMember d "current") "" in
      let news := cstr_or (getMember d "new") "" in
      let confirm := cstr_or (getMember d "confirm") "" in
      if (String.length news <? 4)%nat || (8 <? String.length news)%nat
         || negb (isDigits news)
      then sendJsonWithCORS 400
             (cpp "{'ok':false,'err':'fmt','hint':'4-8 cifre'}") else
      if negb (news =? confirm)
      then sendJsonWithCORS 400 (cpp "{'ok':false,'err':'confirm'}") else
      stored <- gets masterCode ;;
      if (0 <? String.length stored)%nat && negb (current =? stored)
      then sendJsonWithCORS 403 (cpp "{'ok':false,'err':'current'}") else
      written <- saveCode news ;;
      if negb written
      then sendJsonWithCORS 500 (cpp "{'ok':false,'err':'save'}") else
      Serial_println "Master code changed successfully!" ;;
      sendJsonWithCORS 200 (cpp "{'ok':true}")
  end.

(** The lambda registered for [HTTP_OPTIONS]. *)
Definition handleCodeOptions : M unit :=
  server_sendHeader "Access-Control-Allow-Origin" "*" ;;
  server_sendHeader "Access-Control-Allow-Methods" "GET,POST,OPTIONS" ;;
  server_sendHeader "Access-Control-Allow-Headers" "Content-Type" ;;
  server_send 204 "text/plain" "".

(** [registerCodeApi] adds three routes to those of the server. *)
Definition registerCodeApi (routes : list Route) : list Route :=
  (routes ++ [ mkRoute "/api/code" HTTP_GET handleCodeGet;
               mkRoute "/api/code" HTTP_POST handleCodePost;
               mkRoute "/api/code" HTTP_OPTIONS handleCodeOptions ])%list.

(** ** Serving requests

    The web server hands a request to the first route registered for its
    method and path, after storing its arguments.  A request that no route
    matches belongs to the rest of the firmware and changes nothing here. *)

Definition canHandle (r : Route) (m : HTTPMethod) (uri : string) : bool :=
  (HTTPMethod_eqb (route_method r) HTTP_ANY
   || HTTPMethod_eqb (route_method r) m)
  && (route_uri r =? uri).

Fixpoint findHandler (routes : list Route) (m : HTTPMethod) (uri : string)
  : option (M unit) :=
  match routes with
  | [] => None
  | r :: rest =>
      if canHandle r m uri then Some (route_fn r) else findHandler rest m uri
  end.

Definition handleClient (routes : list Route) (rq : Request) : M unit :=
  modify (set_currentArgs (req_args rq)) ;;
  match findHandler routes (req_method rq) (req_uri rq) with
  | Some fn => fn
  | None => ret tt
  end.

Definition step (w : World) (ev : Event) : World :=
  exec (handleClient (registerCodeApi []) (ev_request ev))
       (set_open_ok (ev_open_ok ev) w).

Definition run (evs : list Event) (w : World) : World :=
  fold_left step evs w.

(** The state after [saveCode] has written [code]. *)
Definition saved (code : string) (w : World) : World :=
  set_masterCode code
    (set_files (assoc_set FILE_CODE
                  (serializeJson serializeFloat
                     (JObject [("code", JString code)]))
                  (files w)) w).

(** The state just before the success response goes out. *)
Definition changed (code : string) (w : World) : World :=
  let w1 := saved code w in
  set_serial
    (serial w1 ++ [("Master code changed successfully!" ++ CRLF)%string])%list
    w1.

(** The outcomes of [handleCodePost] from a state [w], each with the
    condition that selects it: the status and body of the response, and the
    state the response leaves from. *)
Inductive post_case (w : World) : Z -> string -> World -> Prop :=
| case_no_body :
    assoc "plain" (currentArgs w) = None ->
    post_case w 400 (cpp "{'ok':false,'err':'no_body'}") w
| case_json (plain : string) :
    assoc "plain" (currentArgs w) = Some plain ->
    deserializeJson 256 plain = None ->
    post_case w 400 (cpp "{'ok':false,'err':'json'}") w
| case_fmt (plain : string) (d : JsonVariant JsonFloat) :
    assoc "plain" (currentArgs w) = Some plain ->
    deserializeJson 256 plain = Some d ->
    ~ valid_code (field d "new") ->
    post_case w 400 (cpp "{'ok':false,'err':'fmt','hint':'4-8 cifre'}") w
| case_confirm (plain : string) (d : JsonVariant JsonFloat) :
    assoc "plain" (currentArgs w) = Some plain ->
    deserializeJson 256 plain = Some d ->
    valid_code (field d "new") ->
    field d "new" <> field d "confirm" ->
    post_case w 400 (cpp "{'ok':false,'err':'confirm'}") w
| case_current (plain : string) (d : JsonVariant JsonFloat) :
    assoc "plain" (currentArgs w) = Some plain ->
    deserializeJson 256 plain = Some d ->
    valid_code (field d "new") ->
    field d "new" = field d "confirm" ->
    masterCode w <> "" ->
    field d "current" <> masterCode w ->
    post_case w 403 (cpp "{'ok':false,'err':'current'}") w
| case_save (plain : string) (d : JsonVariant JsonFloat) :
    assoc "plain" (currentArgs w) = Some plain ->
    deserializeJson 256 plain = Some d ->
    valid_code (field d "new") ->
    field d "new" = field d "confirm" ->
    masterCode w = "" \/ field d "current" = masterCode w ->
    open_ok w = false ->
    post_case w 500 (cpp "{'ok':false,'err':'save'}") w
| case_ok (plain : string) (d : JsonVariant JsonFloat) :
    assoc "plain" (currentArgs w) = Some plain ->
    deserializeJson 256 plain = Some d ->
    valid_code (field d "new") ->
    field d "new" = field d "confirm" ->
    masterCode w = "" \/ field d "current" = masterCode w ->
    open_ok w = true ->
    post_case w 200 (cpp "{'ok':true}") (changed (field d "new") w).

(** ** Basic facts *)

Lemma assoc_set_same (key value : string) (l : list (string * string)) :
  assoc key (assoc_set key value l) = Some value.
Proof.
  induction l as [|[k v] rest IH]; simpl.
  - now rewrite String.eqb_refl.
  - destruct (k =? key) eqn:E; simpl; rewrite E; auto.
Qed.

Lemma assoc_set_twice (key v1 v2 : string) (l : list (string * string)) :
  assoc_set key v2 (assoc_set key v1 l) = assoc_set key v2 l.
Proof.
  induction l as [|[k v] rest IH]; simpl.
  - now rewrite String.eqb_refl.
  - destruct (k =? key) eqn:E; simpl; rewrite E; [reflexivity|].
    now rewrite IH.
Qed.

Lemma isDigits_Forall (s : string) :
  isDigits s = true <-> Forall is_digit (list_ascii_of_string s).
Proof.
  induction s as [|c rest IH]; simpl.
  - split; [constructor | reflexivity].
  - destruct ((nat_of_ascii c <? 48)%nat || (57 <? nat_of_ascii c)%nat)
      eqn:Out.
    + apply orb_true_iff in Out. rewrite !Nat.ltb_lt in Out.
      split; [discriminate|].
      intros H. inversion H as [|? ? Hd _]. unfold is_digit in Hd. lia.
    + apply orb_false_iff in Out. rewrite !Nat.ltb_ge in Out.
      rewrite IH. split.
      * intros H. constructor; [unfold is_digit; lia | exact H].
      * intros H. now inversion H.
Qed.

(** The format test of [handleCodePost] decides [valid_code]. *)
Lemma format_test_valid (s : string) :
  (String.length s <? 4)%nat || (8 <? String.length s)%nat
  || negb (isDigits s) = false <-> valid_code s.
Proof.
  unfold valid_code. rewrite <- isDigits_Forall.
  rewrite !orb_false_iff, negb_false_iff, !Nat.ltb_ge. intuition lia.
Qed.

Lemma format_test_invalid (s : string) :
  (String.length s <? 4)%nat || (8 <? String.length s)%nat
  || negb (isDigits s) = true <-> ~ valid_code s.
Proof.
  rewrite <- format_test_valid.
  destruct ((String.length s <? 4)%nat || (8 <? String.length s)%nat
            || negb (isDigits s)); split; intros H; congruence.
Qed.

Lemma valid_code_nonempty (s : string) : valid_code s -> s <> "".
Proof. intros [[H _] _] ->. simpl in H. lia. Qed.

Lemma length_pos_nonempty (s : string) :
  (0 <? String.length s)%nat = true <-> s <> "".
Proof.
  destruct s as [|c rest]; cbn.
  - split; [discriminate | intros H; now destruct H].
  - split; [discriminate | reflexivity].
Qed.

(** ** What the primitives do *)

Lemma sendJsonWithCORS_run (code : Z) (content : string) (w : World) :
  sendJsonWithCORS code content w
  = (tt, responded (json_response w code content) w).
Proof.
  unfold sendJsonWithCORS, responded, json_response, bind, server_sendHeader,
    server_send, modify, CORS_HEADERS.
  cbn [responseHeaders sent set_responseHeaders set_sent masterCode files
       open_ok currentArgs serial].
  now rewrite <- !app_assoc.
Qed.

Lemma handleCodeOptions_run (w : World) :
  handleCodeOptions w
  = (tt, responded (mkResponse 204 "text/plain"
                               (responseHeaders w ++ CORS_HEADERS)%list "") w).
Proof.
  unfold handleCodeOptions, responded, bind, server_sendHeader,
    server_send, modify, CORS_HEADERS.
  cbn [responseHeaders sent set_responseHeaders set_sent masterCode files
       open_ok currentArgs serial].
  now rewrite <- !app_assoc.
Qed.

Lemma saveCode_opened (code : string) (w : World) :
  open_ok w = true -> saveCode code w = (true, saved code w).
Proof.
  intros Hok.
  unfold saveCode, saved, bind, LittleFS_open, File_write, File_close,
    modify, ret. rewrite Hok.
  cbn [negb files set_files set_masterCode masterCode open_ok currentArgs
       responseHeaders sent serial setMember DynamicJsonDocument].
  rewrite assoc_set_same, assoc_set_twice. reflexivity.
Qed.

Lemma saveCode_refused (code : string) (w : World) :
  open_ok w = false -> saveCode code w = (false, w).
Proof.
  intros Hok. unfold saveCode, bind, LittleFS_open. now rewrite Hok.
Qed.

(** ** The paths through [handleCodePost] *)

(** Unfolds the handler and follows the tests the hypotheses decide. *)
Ltac post_run :=
  unfold handleCodePost, bind, server_hasArg, server_arg, gets, field in *;
  repeat (progress (repeat match goal with
                           | H : _ = _ |- _ => rewrite H
                           end;
                    cbn [negb andb]; cbv beta iota zeta)).

Lemma post_path_no_body (w : World) :
  assoc "plain" (currentArgs w) = None ->
  handleCodePost w
  = (tt, responded
           (json_response w 400 (cpp "{'ok':false,'err':'no_body'}")) w).
Proof. intros Hargs. post_run. apply sendJsonWithCORS_run. Qed.

Lemma post_path_json (w : World) (plain : string) :
  assoc "plain" (currentArgs w) = Some plain ->
  deserializeJson 256 plain = None ->
  handleCodePost w
  = (tt, responded (json_response w 400 (cpp "{'ok':false,'err':'json'}")) w).
Proof. intros Hargs Hparse. post_run. apply sendJsonWithCORS_run. Qed.

Section Parsed.

Variable w : World.
Variable plain : string.
Variable d : JsonVariant JsonFloat.
Hypothesis Hargs : assoc "plain" (currentArgs w) = Some plain.
Hypothesis Hparse : deserializeJson 256 plain = Some d.

Lemma post_path_fmt :
  ~ valid_code (field d "new") ->
  handleCodePost w
  = (tt, responded
           (json_response w 400
              (cpp "{'ok':false,'err':'fmt','hint':'4-8 cifre'}")) w).
Proof.
  intros Hfmt. apply format_test_invalid in Hfmt.
  post_run. apply sendJsonWithCORS_run.
Qed.

Lemma post_path_confirm :
  valid_code (field d "new") ->
  field d "new" <> field d "confirm" ->
  handleCodePost w
  = (tt, responded
           (json_response w 400 (cpp "{'ok':false,'err':'confirm'}")) w).
Proof.
  intros Hfmt Hneq. apply format_test_valid in Hfmt.
  apply String.eqb_neq in Hneq.
  post_run. apply sendJsonWithCORS_run.
Qed.

Lemma post_path_current :
  valid_code (field d "new") ->
  field d "new" = field d "confirm" ->
  masterCode w <> "" ->
  field d "current" <> masterCode w ->
  handleCodePost w
  = (tt, responded
           (json_response w 403 (cpp "{'ok':false,'err':'current'}")) w).
Proof.
  intros Hfmt Heq Hset Hcur. apply format_test_valid in Hfmt.
  apply String.eqb_eq in Heq. apply length_pos_nonempty in Hset.
  apply String.eqb_neq in Hcur.
  post_run. apply sendJsonWithCORS_run.
Qed.

Lemma current_passes_test :
  masterCode w = "" \/ field d "current" = masterCode w ->
  (0 <? String.length (masterCode w))%nat
  && negb (field d "current" =? masterCode w) = false.
Proof.
  intros [Hempty | Hsame].
  - now rewrite Hempty.
  - apply String.eqb_eq in Hsame. rewrite Hsame. cbn [negb].
    apply andb_false_r.
Qed.

Lemma post_path_save :
  valid_code (field d "new") ->
  field d "new" = field d "confirm" ->
  masterCode w = "" \/ field d "current" = masterCode w ->
  open_ok w = false ->
  handleCodePost w
  = (tt, responded (json_response w 500 (cpp "{'ok':false,'err':'save'}")) w).
Proof.
  intros Hfmt Heq Hcur Hopen. apply format_test_valid in Hfmt.
  apply String.eqb_eq in Heq. apply current_passes_test in Hcur.
  pose proof (saveCode_refused (field d "new") w Hopen) as Hsave.
  post_run. apply sendJsonWithCORS_run.
Qed.

Lemma post_path_ok :
  valid_code (field d "new") ->
  field d "new" = field d "confirm" ->
  masterCode w = "" \/ field d "current" = masterCode w ->
  open_ok w = true ->
  handleCodePost w
  = (tt, responded (json_response w 200 (cpp "{'ok':true}"))
                   (changed (field d "new") w)).
Proof.
  intros Hfmt Heq Hcur Hopen. apply format_test_valid in Hfmt.
  apply String.eqb_eq in Heq. apply current_passes_test in Hcur.
  pose proof (saveCode_opened (field d "new") w Hopen) as Hsave.
  post_run. unfold Serial_println, Serial_print, modify.
  rewrite sendJsonWithCORS_run. reflexivity.
Qed.

End Parsed.

(** Every run of [handleCodePost] is one of the outcomes of [post_case],
    and sends exactly the response of that outcome. *)
Lemma handleCodePost_cases (w : World) :
  exists code content w1,
    post_case w code content w1 /\
    handleCodePost w = (tt, responded (json_response w code content) w1).
Proof.
  destruct (assoc "plain" (currentArgs w)) as [plain|] eqn:Hargs.
  2: { do 3 eexists. split; [now apply case_no_body|].
       now apply post_path_no_body. }
  destruct (deserializeJson 256 plain) as [d|] eqn:Hparse.
  2: { do 3 eexists. split; [now apply (case_json w plain)|].
       now apply (post_path_json w plain). }
  destruct ((String.length (field d "new") <? 4)%nat
            || (8 <? String.length (field d "new"))%nat
            || negb (isDigits (field d "new"))) eqn:Hfmt.
  { apply format_test_invalid in Hfmt.
    do 3 eexists. split; [now apply (case_fmt w plain d)|].
    now apply (post_path_fmt w plain d). }
  apply format_test_valid in Hfmt.
  destruct (String.eqb_spec (field d "new") (field d "confirm")) as [Heq|Hneq].
  2: { do 3 eexists. split; [now apply (case_confirm w plain d)|].
       now apply (post_path_confirm w plain d). }
  assert (Hcur : (masterCode w <> "" /\ field d "current" <> masterCode w)
                 \/ (masterCode w = "" \/ field d "current" = masterCode w)).
  { destruct (String.eqb_spec (masterCode w) "");
      destruct (String.eqb_spec (field d "current") (masterCode w)); auto. }
  destruct Hcur as [[Hset Hcur] | Hcur].
  { do 3 eexists. split; [now apply (case_current w plain d)|].
    now apply (post_path_current w plain d). }
  destruct (open_ok w) eqn:Hopen.
  - do 3 eexists. split; [now apply (case_ok w plain d)|].
    now apply (post_path_ok w plain d).
  - do 3 eexists. split; [now apply (case_save w plain d)|].
    now apply (post_path_save w plain d).
Qed.

(** The outcomes leave the code alone or install a well-formed one. *)
Lemma post_case_code (w : World) (code : Z) (content : string) (w1 : World) :
  post_case w code content w1 ->
  (masterCode w1 = masterCode w /\ files w1 = files w /\ code <> 200%Z)
  \/ (valid_code (masterCode w1) /\ code = 200%Z).
Proof.
  intros Hcase. destruct Hcase; try (left; repeat split; discriminate).
  right. split; [assumption | reflexivity].
Qed.

Lemma handleCodeGet_run (w : World) :
  handleCodeGet w
  = (tt, responded
           (json_response w 200
              (serializeJson serializeFloat
                 (JObject
                    [("set", JBool (0 <? String.length (masterCode w))%nat);
                     ("len", JInt (int_of_unsigned
                                     (Z.of_nat
                                        (String.length (masterCode w)))))])))
           w).
Proof.
  unfold handleCodeGet, bind, gets. cbv beta iota zeta.
  apply sendJsonWithCORS_run.
Qed.

(** ** Text of the documents the firmware writes *)

Lemma append_nil_r (s : string) : s ++ "" = s.
Proof. induction s as [|c rest IH]; simpl; [reflexivity | now rewrite IH]. Qed.

Lemma append_assoc (a b c : string) : (a ++ b) ++ c = a ++ b ++ c.
Proof. induction a as [|x rest IH]; simpl; [reflexivity | now rewrite IH]. Qed.

Lemma escapeChar_digit (c : ascii) :
  is_digit c -> escapeChar c = String c EmptyString.
Proof.
  unfold is_digit, escapeChar. intros H.
  repeat match goal with
         | |- context [Nat.eqb ?a ?b] =>
             destruct (Nat.eqb_spec a b); [lia|]
         end.
  reflexivity.
Qed.

Lemma escapeString_digits (s : string) :
  Forall is_digit (list_ascii_of_string s) -> escapeString s = s.
Proof.
  induction s as [|c rest IH]; simpl; intros H; [reflexivity|].
  inversion H as [|? ? Hc Hrest]; subst.
  now rewrite (escapeChar_digit c Hc), (IH Hrest).
Qed.

(** Evaluates the literals of the goal. *)
Ltac eval_cpp :=
  repeat match goal with
         | |- context [cpp ?s] =>
             let t := eval vm_compute in (cpp s) in change (cpp s) with t
         end.

Lemma serialize_member (k : string) (v : JsonVariant JsonFloat) :
  serializeJson serializeFloat (JObject [(k, v)])
  = "{" ++ quoted (escapeString k) ++ ":" ++ serializeJson serializeFloat v
        ++ "}".
Proof.
  change (serializeJson serializeFloat (JObject [(k, v)]))
    with ("{" ++ (writeString k ++ ":" ++ serializeJson serializeFloat v ++ "")
              ++ "}").
  unfold writeString. now rewrite !append_assoc.
Qed.

Lemma serialize_two_members (k1 k2 : string) (v1 v2 : JsonVariant JsonFloat) :
  serializeJson serializeFloat (JObject [(k1, v1); (k2, v2)])
  = "{" ++ quoted (escapeString k1) ++ ":" ++ serializeJson serializeFloat v1
        ++ "," ++ quoted (escapeString k2) ++ ":"
        ++ serializeJson serializeFloat v2 ++ "}".
Proof.
  change (serializeJson serializeFloat (JObject [(k1, v1); (k2, v2)]))
    with ("{" ++ (writeString k1 ++ ":" ++ serializeJson serializeFloat v1
                  ++ "," ++ writeString k2 ++ ":"
                  ++ serializeJson serializeFloat v2 ++ "")
              ++ "}").
  unfold writeString. now rewrite !append_assoc.
Qed.

(** The record file of a well-formed code. *)
Lemma serialize_code_record (code : string) :
  valid_code code ->
  serializeJson serializeFloat (JObject [("code", JString code)])
  = cpp "{'code':'" ++ code ++ cpp "'}".
Proof.
  intros [_ Hdigits]. rewrite serialize_member.
  change (serializeJson serializeFloat (JString code))
    with (quoted (escapeString code)).
  rewrite (escapeString_digits code Hdigits).
  unfold quoted. rewrite !append_assoc. eval_cpp. reflexivity.
Qed.

(** The body of the GET response. *)
Lemma serialize_status (b : bool) (z : Z) :
  serializeJson serializeFloat (JObject [("set", JBool b); ("len", JInt z)])
  = cpp "{'set':" ++ string_of_bool b ++ cpp ",'len':" ++ string_of_Z z ++ "}".
Proof.
  rewrite serialize_two_members.
  change (serializeJson serializeFloat (JInt z)) with (string_of_Z z).
  replace (serializeJson serializeFloat (JBool b)) with (string_of_bool b)
    by now destruct b.
  unfold quoted. rewrite !append_assoc. eval_cpp. reflexivity.
Qed.

Lemma int_of_unsigned_small (z : Z) :
  (0 <= z <= INT_MAX)%Z -> int_of_unsigned z = z.
Proof.
  unfold int_of_unsigned, INT_MAX. intros H.
  rewrite Z.mod_small by lia.
  destruct (Z.leb_spec z 2147483647); [reflexivity | lia].
Qed.

(** ** The code store *)

Ltac load_run :=
  unfold eval, exec, loadCode, bind, LittleFS_exists, LittleFS_open,
    File_read, File_close, Serial_print, gets, ret, modify;
  repeat (progress (repeat match goal with
                           | H : _ = _ |- _ => rewrite H
                           end;
                    cbn [negb fst snd files set_masterCode set_serial];
                    cbv beta iota zeta)).

Lemma or_nullptr_null (v : JsonVariant JsonFloat) : or_nullptr v = None.
Proof. destruct v; reflexivity. Qed.

(** Every call of [loadCode] ends in one of its four [return false]: the
    test of line 30 sees a null pointer whatever the document holds. *)
Lemma loadCode_run (w : World) : loadCode w = (false, w).
Proof.
  destruct (assoc FILE_CODE (files w)) as [text|] eqn:Hfile;
    [|load_run; reflexivity].
  destruct (open_ok w) eqn:Hopen; [|load_run; reflexivity].
  destruct (deserializeJson 128 text) as [d|] eqn:Hparse;
    [|load_run; reflexivity].
  pose proof (or_nullptr_null (getMember d "code")) as Hnull.
  load_run. reflexivity.
Qed.

(** ** The handlers *)

(** C7: in every state GET answers 200 with the body [{set: b, len: n}],
    where [b] is true exactly when the in-memory master code is not empty
    and [n] is the [(int)] cast of the number of its characters, which is
    that number whenever it fits an [int]; GET changes neither the
    in-memory code nor the files; with no code set the body is
    [{set: false, len: 0}]. *)
Theorem get_reports_code (w : World) :
  let w' := exec handleCodeGet w in
  let len := Z.of_nat (String.length (masterCode w)) in
  (exists (b : bool) (n : Z),
      sent w' = (sent w ++
                 [json_response w 200
                    (cpp "{'set':" ++ string_of_bool b ++ cpp ",'len':"
                         ++ string_of_Z n ++ "}")])%list
      /\ (b = true <-> masterCode w <> "")
      /\ n = int_of_unsigned len
      /\ ((len <= INT_MAX)%Z -> n = len))
  /\ masterCode w' = masterCode w
  /\ files w' = files w
  /\ (masterCode w = "" ->
      sent w' = (sent w ++
                 [json_response w 200 (cpp "{'set':false,'len':0}")])%list).
Proof.
  intros w' len. subst w' len. unfold exec. rewrite handleCodeGet_run.
  rewrite serialize_status. cbn [snd]. split; [|split; [|split]].
  - exists (0 <? String.length (masterCode w))%nat,
      (int_of_unsigned (Z.of_nat (String.length (masterCode w)))).
    split; [reflexivity|]. split; [apply length_pos_nonempty|].
    split; [reflexivity|].
    intros Hrange. apply int_of_unsigned_small. lia.
  - reflexivity.
  - reflexivity.
  - intros Hempty. unfold json_response. rewrite Hempty. reflexivity.
Qed.

(** C9: the OPTIONS handler answers 204 with an empty body in every state,
    and each of the three handlers that [registerCodeApi] registers sends,
    in every state, exactly one response, which carries the three CORS
    headers. *)
Theorem cors_on_every_response :
  (forall w : World,
      exists r, sent (exec handleCodeOptions w) = (sent w ++ [r])%list
                /\ status r = 204%Z /\ body r = ""
                /\ incl CORS_HEADERS (headers r))
  /\ (forall (rt : Route) (w : World),
         In rt (registerCodeApi []) ->
         exists r, sent (exec (route_fn rt) w) = (sent w ++ [r])%list
                   /\ incl CORS_HEADERS (headers r)).
Proof.
  split.
  - intros w. unfold exec. rewrite handleCodeOptions_run.
    eexists. repeat split. cbn [headers]. apply incl_appr, incl_refl.
  - intros rt w [<- | [<- | [<- | []]]]; unfold exec; cbn [route_fn].
    + rewrite handleCodeGet_run. eexists. split; [reflexivity|].
      apply incl_appr, incl_refl.
    + destruct (handleCodePost_cases w) as (code & content & w1 & Hc & ->).
      exists (json_response w code content). split.
      * destruct Hc; reflexivity.
      * apply incl_appr, incl_refl.
    + rewrite handleCodeOptions_run. eexists. split; [reflexivity|].
      apply incl_appr, incl_refl.
Qed.

Lemma sent_responded (r : Response) (w : World) :
  sent (responded r w) = (sent w ++ [r])%list.
Proof. reflexivity. Qed.





(** C5, with the bodies the handler sends: every error response of POST
    has exactly the body of its pipeline step, which opens with an [ok]
    member set to false before the [err] tag (and the hint for [fmt]):
    400 [no_body] when the body is absent, 400 [json] when it does not
    parse, 400 [fmt], 400 [confirm], 403 [current] and 500 [save] under the
    conditions of their steps; no other error response exists. *)
Theorem post_error_bodies (w : World) :
  let w' := exec handleCodePost w in
  let answers (code : Z) (content : string) :=
    sent w' = (sent w ++ [json_response w code content])%list in
  (assoc "plain" (currentArgs w) = None ->
   answers 400%Z (cpp "{'ok':false,'err':'no_body'}"))
  /\ (forall plain,
         assoc "plain" (currentArgs w) = Some plain ->
         deserializeJson 256 plain = None ->
         answers 400%Z (cpp "{'ok':false,'err':'json'}"))
  /\ (forall plain d,
         assoc "plain" (currentArgs w) = Some plain ->
         deserializeJson 256 plain = Some d ->
         (~ valid_code (field d "new") ->
          answers 400%Z (cpp "{'ok':false,'err':'fmt','hint':'4-8 cifre'}"))
         /\ (valid_code (field d "new") ->
             field d "new" <> field d "confirm" ->
             answers 400%Z (cpp "{'ok':false,'err':'confirm'}"))
         /\ (valid_code (field d "new") ->
             field d "new" = field d "confirm" ->
             masterCode w <> "" ->
             field d "current" <> masterCode w ->
             answers 403%Z (cpp "{'ok':false,'err':'current'}"))
         /\ (valid_code (field d "new") ->
             field d "new" = field d "confirm" ->
             masterCode w = "" \/ field d "current" = masterCode w ->
             open_ok w = false ->
             answers 500%Z (cpp "{'ok':false,'err':'save'}")))
  /\ (exists r,
         sent w' = (sent w ++ [r])%list
         /\ (status r <> 200%Z ->
             In (status r, body r)
                [ (400%Z, cpp "{'ok':false,'err':'no_body'}");
                  (400%Z, cpp "{'ok':false,'err':'json'}");
                  (400%Z, cpp "{'ok':false,'err':'fmt','hint':'4-8 cifre'}");
                  (400%Z, cpp "{'ok':false,'err':'confirm'}");
                  (403%Z, cpp "{'ok':false,'err':'current'}");
                  (500%Z, cpp "{'ok':false,'err':'save'}") ])).
Proof.
  intros w' answers. subst w' answers. unfold exec. cbv beta.
  split; [|split; [|split]].
  - intros Hargs. now rewrite (post_path_no_body w Hargs).
  - intros plain Hargs Hparse.
    now rewrite (post_path_json w plain Hargs Hparse).
  - intros plain d Hargs Hparse. repeat split.
    + intros Hfmt. now rewrite (post_path_fmt w plain d Hargs Hparse Hfmt).
    + intros Hfmt Hneq.
      now rewrite (post_path_confirm w plain d Hargs Hparse Hfmt Hneq).
    + intros Hfmt Heq Hset Hcur.
      now rewrite (post_path_current w plain d Hargs Hparse Hfmt Heq Hset
                                     Hcur).
    + intros Hfmt Heq Hcur Hopen.
      now rewrite (post_path_save w plain d Hargs Hparse Hfmt Heq Hcur Hopen).
  - destruct (handleCodePost_cases w) as (code & content & w1 & Hc & ->).
    exists (json_response w code content). split.
    + destruct Hc; reflexivity.
    + cbn [status body json_response].
      destruct Hc; intros Hne; cbn [In]; auto 7. now destruct Hne.
Qed.

(** C2: when POST answers 200, the request carried a parseable body whose
    [new] field [N] is a well-formed code; the in-memory master code is [N],
    the record file holds the record of [N], and a GET that follows answers
    200 with [set] true and [len] the length of [N]. *)
Theorem post_success_roundtrip (w : World) (r : Response) :
  let w' := exec handleCodePost w in
  sent w' = (sent w ++ [r])%list ->
  status r = 200%Z ->
  exists plain d,
    assoc "plain" (currentArgs w) = Some plain
    /\ deserializeJson 256 plain = Some d
    /\ valid_code (field d "new")
    /\ masterCode w' = field d "new"
    /\ assoc FILE_CODE (files w')
       = Some (cpp "{'code':'" ++ field d "new" ++ cpp "'}")
    /\ forall args ok,
        sent (exec handleCodeGet (set_open_ok ok (set_currentArgs args w')))
        = (sent w' ++
           [mkResponse 200 "application/json" CORS_HEADERS
              (cpp "{'set':true,'len':"
                   ++ string_of_nat (String.length (field d "new"))
                   ++ "}")])%list.
Proof.
  intros w'. subst w'. unfold exec.
  destruct (handleCodePost_cases w) as (code & content & w1 & Hc & ->).
  cbn [snd]. rewrite sent_responded. intros Hsent Hstatus.
  assert (Hw1 : sent w1 = sent w) by (destruct Hc; reflexivity).
  rewrite Hw1 in Hsent. apply app_inv_head in Hsent.
  injection Hsent as <-. cbn [status json_response] in Hstatus.
  destruct Hc as [ | | | | | | plain d Hargs Hparse Hfmt Heq Hcur Hopen];
    try discriminate Hstatus.
  exists plain, d.
  split; [exact Hargs|]. split; [exact Hparse|]. split; [exact Hfmt|].
  split; [reflexivity|]. split.
  - cbn [files responded changed saved set_responseHeaders set_sent
         set_serial set_masterCode set_files].
    rewrite assoc_set_same. f_equal. now apply serialize_code_record.
  - intros args ok. rewrite handleCodeGet_run.
    cbn [snd]. rewrite sent_responded. f_equal.
    rewrite serialize_status.
    cbn [masterCode responded changed saved set_responseHeaders set_sent
         set_serial set_masterCode set_files set_open_ok set_currentArgs
         sent].
    destruct Hfmt as [[Hlo Hhi] _].
    rewrite int_of_unsigned_small by (unfold INT_MAX; lia).
    replace (0 <? String.length (field d "new"))%nat with true
      by (symmetry; apply Nat.ltb_lt; lia).
    reflexivity.
Qed.

(** ** Runs of requests *)

(** The routes of [registerCodeApi]: one path, three methods. *)
Lemma findHandler_registered (m : HTTPMethod) (uri : string) :
  findHandler (registerCodeApi []) m uri
  = if "/api/code" =? uri
    then match m with
         | HTTP_GET => Some handleCodeGet
         | HTTP_POST => Some handleCodePost
         | HTTP_OPTIONS => Some handleCodeOptions
         | _ => None
         end
    else None.
Proof.
  unfold registerCodeApi, findHandler, canHandle.
  cbn [app route_method route_uri route_fn].
  destruct m; destruct ("/api/code" =? uri); reflexivity.
Qed.

Lemma step_code (w : World) (ev : Event) :
  masterCode (step w ev) = masterCode w
  \/ valid_code (masterCode (step w ev)).
Proof.
  unfold step, handleClient, exec, bind, modify.
  set (w2 := set_currentArgs (req_args (ev_request ev))
                             (set_open_ok (ev_open_ok ev) w)).
  assert (Hw2 : masterCode w2 = masterCode w) by reflexivity.
  rewrite findHandler_registered.
  destruct ("/api/code" =? req_uri (ev_request ev)); [|now left].
  destruct (req_method (ev_request ev)); cbv beta iota.
  all: try (left; rewrite ?handleCodeGet_run, ?handleCodeOptions_run;
            exact Hw2).
  destruct (handleCodePost_cases w2) as (code & content & w1 & Hc & ->).
  cbn [snd].
  destruct (post_case_code w2 code content w1 Hc)
    as [(Hsame & _ & _) | (Hvalid & _)].
  - left. cbn [masterCode responded set_responseHeaders set_sent].
    congruence.
  - right. exact Hvalid.
Qed.

Lemma run_app (evs1 evs2 : list Event) (w : World) :
  run (evs1 ++ evs2) w = run evs2 (run evs1 w).
Proof. apply fold_left_app. Qed.

Lemma run_code_ok (evs : list Event) (w : World) :
  code_ok (masterCode w) -> code_ok (masterCode (run evs w)).
Proof.
  revert w. induction evs as [|ev rest IH]; intros w Hok; [exact Hok|].
  cbn [run fold_left]. apply IH.
  destruct (step_code w ev) as [Hsame | Hvalid].
  - now rewrite Hsame.
  - now right.
Qed.

Lemma run_code_stays_set (evs : list Event) (w : World) :
  masterCode w <> "" -> masterCode (run evs w) <> "".
Proof.
  revert w. induction evs as [|ev rest IH]; intros w Hset; [exact Hset|].
  cbn [run fold_left]. apply IH.
  destruct (step_code w ev) as [Hsame | Hvalid].
  - now rewrite Hsame.
  - now apply valid_code_nonempty.
Qed.

(** C10: from an empty in-memory master code, after any run of requests
    the master code is empty or a string of 4 to 8 ASCII digits; and once it
    is not empty, no further run of requests makes it empty again. *)
Theorem run_preserves_code_invariant (evs1 evs2 : list Event) (w0 : World) :
  masterCode w0 = "" ->
  code_ok (masterCode (run evs1 w0))
  /\ (masterCode (run evs1 w0) <> "" ->
      masterCode (run (evs1 ++ evs2) w0) <> "").
Proof.
  intros Hempty. split.
  - apply run_code_ok. now left.
  - intros Hset. rewrite run_app. now apply run_code_stays_set.
Qed.

(** ** Further properties of the code store *)

(** The text [saveCode] writes for [code]. *)
Definition code_record (code : string) : string :=
  serializeJson serializeFloat (JObject [("code", JString code)]).

(** The record file and the in-memory code agree: no code and no file, or
    a well-formed code and its record. *)
Definition in_sync (w : World) : Prop :=
  (masterCode w = "" /\ assoc FILE_CODE (files w) = None)
  \/ (valid_code (masterCode w)
      /\ assoc FILE_CODE (files w)
         = Some (cpp "{'code':'" ++ masterCode w ++ cpp "'}")).

Lemma assoc_set_other (key other value : string)
      (l : list (string * string)) :
  other <> key -> assoc other (assoc_set key value l) = assoc other l.
Proof.
  intros Hne. induction l as [|[k v] rest IH]; simpl.
  - destruct (String.eqb_spec key other); [congruence | reflexivity].
  - destruct (String.eqb_spec k key) as [->|Hk]; simpl.
    + destruct (String.eqb_spec key other); [congruence | reflexivity].
    + destruct (String.eqb_spec k other); [reflexivity | exact IH].
Qed.

(** X1: [saveCode] of a string of at most eight characters: when the file
    opens, the call returns true, the in-memory code is the argument, the
    record file holds exactly the record of the argument whatever it held
    before, every other file is as it was and nothing is sent or printed;
    when the file does not open, the call returns false and the state is
    untouched. *)
Theorem saveCode_overwrites_record (code : string) (w : World) :
  (String.length code <= 8)%nat ->
  (open_ok w = true ->
   eval (saveCode code) w = true
   /\ masterCode (exec (saveCode code) w) = code
   /\ assoc FILE_CODE (files (exec (saveCode code) w))
      = Some (code_record code)
   /\ (forall path, path <> FILE_CODE ->
                    assoc path (files (exec (saveCode code) w))
                    = assoc path (files w))
   /\ sent (exec (saveCode code) w) = sent w
   /\ serial (exec (saveCode code) w) = serial w)
  /\ (open_ok w = false ->
      eval (saveCode code) w = false /\ exec (saveCode code) w = w).
Proof.
  intros _. split; intros Hopen; unfold eval, exec.
  - rewrite (saveCode_opened code w Hopen). cbn [fst snd].
    split; [reflexivity|]. split; [reflexivity|]. split.
    + apply assoc_set_same.
    + split; [|split; reflexivity].
      intros path Hne. now apply assoc_set_other.
  - rewrite (saveCode_refused code w Hopen). split; reflexivity.
Qed.

(** X2: Two saves in a row leave the state of the second one alone: the first
    record is overwritten, not kept beside the new one. *)
Theorem saveCode_last_write_wins (c1 c2 : string) (w : World) :
  open_ok w = true ->
  exec (saveCode c2) (exec (saveCode c1) w) = exec (saveCode c2) w.
Proof.
  intros Hopen. unfold exec.
  rewrite (saveCode_opened c1 w Hopen). cbn [snd].
  rewrite (saveCode_opened c2 (saved c1 w)) by exact Hopen.
  rewrite (saveCode_opened c2 w Hopen). cbn [snd].
  unfold saved, set_masterCode, set_files.
  cbn [masterCode files open_ok currentArgs responseHeaders sent serial].
  now rewrite assoc_set_twice.
Qed.

(** X4: [loadCode] never succeeds: in every state it returns false and
    leaves the whole state as it was, so it sets no code, changes no file,
    sends and prints nothing.  This holds also when the record file is
    there, opens, parses and has a string under [code]: the pointer that
    line 30 tests comes from [| nullptr] and is null. *)
Theorem loadCode_never_succeeds (w : World) :
  eval loadCode w = false
  /\ exec loadCode w = w
  /\ (forall text d c,
         assoc FILE_CODE (files w) = Some text ->
         open_ok w = true ->
         deserializeJson 128 text = Some d ->
         getMember d "code" = JString c ->
         eval loadCode w = false
         /\ masterCode (exec loadCode w) = masterCode w).
Proof.
  unfold eval, exec. rewrite loadCode_run. cbn [fst snd].
  split; [reflexivity|]. split; [reflexivity|].
  intros text d c _ _ _ _. split; reflexivity.
Qed.

(** ** Further properties of the handlers *)

(** The conditions under which [handleCodePost] changes the code with the
    document [d] of the request. *)
Definition post_accepts (w : World) (d : JsonVariant JsonFloat) : Prop :=
  valid_code (field d "new")
  /\ field d "new" = field d "confirm"
  /\ (masterCode w = "" \/ field d "current" = masterCode w)
  /\ open_ok w = true.

Lemma post_case_ok_inv (w : World) (content : string) (w1 : World) :
  post_case w 200 content w1 ->
  exists plain d,
    assoc "plain" (currentArgs w) = Some plain
    /\ deserializeJson 256 plain = Some d
    /\ post_accepts w d
    /\ w1 = changed (field d "new") w.
Proof.
  intros Hc. remember 200%Z as code eqn:Hcode.
  destruct Hc as [ | | | | | | plain d Hargs Hparse Hfmt Heq Hcur Hopen];
    try discriminate Hcode.
  exists plain, d. unfold post_accepts. auto 10.
Qed.

Lemma post_case_fail (w : World) (code : Z) (content : string) (w1 : World) :
  post_case w code content w1 -> code <> 200%Z -> w1 = w.
Proof. intros Hc Hne. destruct Hc; try reflexivity. now destruct Hne. Qed.


(** X6: A POST that is not answered 200 has no effect beyond its response:
    the in-memory code, the files and the serial output are as before.  So
    the code changes only together with a 200 response. *)
Theorem post_failure_has_no_effect (w : World) (r : Response) :
  sent (exec handleCodePost w) = (sent w ++ [r])%list ->
  status r <> 200%Z ->
  exec handleCodePost w = responded r w
  /\ masterCode (exec handleCodePost w) = masterCode w
  /\ files (exec handleCodePost w) = files w
  /\ serial (exec handleCodePost w) = serial w.
Proof.
  unfold exec.
  destruct (handleCodePost_cases w) as (code & content & w1 & Hc & ->).
  cbn [snd]. rewrite sent_responded.
  assert (Hw1 : sent w1 = sent w) by (destruct Hc; reflexivity).
  rewrite Hw1. intros Hsent Hstatus. apply app_inv_head in Hsent.
  injection Hsent as <-. cbn [status json_response] in Hstatus.
  rewrite (post_case_fail w code content w1 Hc Hstatus).
  repeat split.
Qed.


(** X8: GET shows nothing of the code but its length: from two states whose
    codes have the same length it sends the same status and body. *)
Theorem get_shows_only_length (w1 w2 : World) :
  String.length (masterCode w1) = String.length (masterCode w2) ->
  exists content,
    sent (exec handleCodeGet w1)
    = (sent w1 ++ [json_response w1 200 content])%list
    /\ sent (exec handleCodeGet w2)
       = (sent w2 ++ [json_response w2 200 content])%list.
Proof.
  intros Hlen. unfold exec. rewrite !handleCodeGet_run. cbn [snd].
  rewrite !sent_responded, Hlen. eexists. split; reflexivity.
Qed.

(** X9: The loop of [isDigits] answers false exactly when some position of the
    string holds a character below ['0'] or above ['9']; in particular it
    answers true on the empty string. *)
Theorem isDigits_false_iff (s : string) :
  isDigits s = false
  <-> exists i c, String.get i s = Some c
                  /\ (nat_of_ascii c < 48 \/ 57 < nat_of_ascii c)%nat.
Proof.
  induction s as [|a rest IH]; simpl.
  - split; [discriminate | intros (i & c & H & _); discriminate].
  - destruct ((nat_of_ascii a <? 48)%nat || (57 <? nat_of_ascii a)%nat)
      eqn:Out.
    + apply orb_true_iff in Out. rewrite !Nat.ltb_lt in Out.
      split; [|reflexivity]. intros _. now exists 0%nat, a.
    + apply orb_false_iff in Out. rewrite !Nat.ltb_ge in Out.
      rewrite IH. split.
      * intros (i & c & Hget & Hc). now exists (S i), c.
      * intros (i & c & Hget & Hc). destruct i as [|i].
        -- injection Hget as <-. lia.
        -- now exists i, c.
Qed.

(** ** Further properties of runs *)

(** What one request does to the code and the files: nothing, or it is a
    POST to [/api/code] that [handleCodePost] accepts and both hold the new
    code. *)
Lemma step_effect (w : World) (ev : Event) :
  (masterCode (step w ev) = masterCode w /\ files (step w ev) = files w)
  \/ (exists plain d,
         req_method (ev_request ev) = HTTP_POST
         /\ req_uri (ev_request ev) = "/api/code"
         /\ assoc "plain" (req_args (ev_request ev)) = Some plain
         /\ deserializeJson 256 plain = Some d
         /\ valid_code (field d "new")
         /\ (masterCode w = "" \/ field d "current" = masterCode w)
         /\ ev_open_ok ev = true
         /\ masterCode (step w ev) = field d "new"
         /\ files (step w ev)
            = assoc_set FILE_CODE (code_record (field d "new")) (files w)).
Proof.
  unfold step, handleClient, exec, bind, modify.
  set (w2 := set_currentArgs (req_args (ev_request ev))
                             (set_open_ok (ev_open_ok ev) w)).
  rewrite findHandler_registered.
  destruct (String.eqb_spec "/api/code" (req_uri (ev_request ev)))
    as [Huri|_]; [|left; split; reflexivity].
  destruct (req_method (ev_request ev)) eqn:Hm; cbv beta iota.
  all: try (left; rewrite ?handleCodeGet_run, ?handleCodeOptions_run;
            split; reflexivity).
  destruct (handleCodePost_cases w2) as (code & content & w1 & Hc & ->).
  cbn [snd].
  destruct (Z.eq_dec code 200) as [->|Hne].
  - right.
    destruct (post_case_ok_inv w2 content w1 Hc)
      as (plain & d & Hargs & Hparse & (Hfmt & _ & Hcur & Hopen) & ->).
    exists plain, d.
    split; [reflexivity|]. split; [now symmetry|]. split; [exact Hargs|].
    split; [exact Hparse|]. split; [exact Hfmt|]. split; [exact Hcur|].
    split; [exact Hopen|]. split; reflexivity.
  - left. rewrite (post_case_fail w2 code content w1 Hc Hne).
    split; reflexivity.
Qed.


Lemma step_in_sync (w : World) (ev : Event) :
  in_sync w -> in_sync (step w ev).
Proof.
  intros Hsync.
  destruct (step_effect w ev)
    as [(Hcode & Hfiles)
       | (plain & d & _ & _ & _ & _ & Hfmt & _ & _ & Hcode & Hfiles)].
  - unfold in_sync. now rewrite Hcode, Hfiles.
  - right. rewrite Hcode, Hfiles, assoc_set_same. split; [exact Hfmt|].
    f_equal. now apply serialize_code_record.
Qed.

Lemma run_in_sync (evs : list Event) (w : World) :
  in_sync w -> in_sync (run evs w).
Proof.
  revert w. induction evs as [|ev rest IH]; intros w Hsync; [exact Hsync|].
  cbn [run fold_left]. apply IH. now apply step_in_sync.
Qed.

(** X11: From a state where the record file and the in-memory code agree (a
    new device has neither), they agree after every run of requests,
    whether the saves of the run succeed or not. *)
Theorem run_keeps_code_in_sync (evs : list Event) (w : World) :
  in_sync w -> in_sync (run evs w).
Proof.
  intros Hsync. unfold run. revert w Hsync.
  induction evs as [|ev rest IH]; intros w Hsync; [exact Hsync|].
  cbn [fold_left]. apply IH. now apply step_in_sync.
Qed.

(** X12: a device that has just started holds no code in memory, and
    [loadCode] leaves it so whatever the files hold; the next POST with a
    well-formed [new] equal to [confirm] is therefore served as a first-time
    setup: it is answered 200 and installs [new] whatever its [current],
    when the record file opens. *)
Theorem startup_leaves_setup_open (w : World)
        (args : list (string * string)) (plain : string)
        (d : JsonVariant JsonFloat) :
  masterCode w = "" ->
  assoc "plain" args = Some plain ->
  deserializeJson 256 plain = Some d ->
  valid_code (field d "new") ->
  field d "new" = field d "confirm" ->
  let w1 := exec loadCode w in
  let w2 := set_open_ok true (set_currentArgs args w1) in
  masterCode w1 = ""
  /\ files w1 = files w
  /\ sent (exec handleCodePost w2)
     = (sent w2 ++ [json_response w2 200 (cpp "{'ok':true}")])%list
  /\ masterCode (exec handleCodePost w2) = field d "new".
Proof.
  intros Hempty Hargs Hparse Hfmt Heq w1 w2.
  assert (Hw1 : w1 = w) by (subst w1; unfold exec; now rewrite loadCode_run).
  subst w2. rewrite Hw1.
  split; [exact Hempty|]. split; [reflexivity|].
  unfold exec.
  rewrite (post_path_ok (set_open_ok true (set_currentArgs args w)) plain d).
  - split; reflexivity.
  - exact Hargs.
  - exact Hparse.
  - exact Hfmt.
  - exact Heq.
  - left. exact Hempty.
  - reflexivity.
Qed.

(** X13: On a device that started without a code, a GET after any run of
    requests answers [{set: false, len: 0}] or [{set: true, len: n}] with
    [n] between 4 and 8: the [(int)] cast of the length never wraps on a
    state the API can reach. *)
Theorem get_after_run (evs : list Event) (w0 : World) :
  masterCode w0 = "" ->
  let w := run evs w0 in
  exists content,
    sent (exec handleCodeGet w)
    = (sent w ++ [json_response w 200 content])%list
    /\ (content = cpp "{'set':false,'len':0}"
        \/ exists n, (4 <= n <= 8)%nat
                     /\ n = String.length (masterCode w)
                     /\ content = cpp "{'set':true,'len':"
                                      ++ string_of_nat n ++ "}").
Proof.
  intros Hempty.
  assert (Hok : code_ok (masterCode (run evs w0)))
    by (apply run_code_ok; now left).
  cbv zeta. revert Hok. generalize (run evs w0). intros w Hok.
  unfold exec. rewrite handleCodeGet_run. cbn [snd].
  rewrite sent_responded, serialize_status. eexists. split; [reflexivity|].
  destruct Hok as [Hnone | [[Hlo Hhi] _]].
  - left. rewrite Hnone. reflexivity.
  - right. exists (String.length (masterCode w)).
    split; [lia|]. split; [reflexivity|].
    rewrite int_of_unsigned_small by (unfold INT_MAX; lia).
    replace (0 <? String.length (masterCode w))%nat with true
      by (symmetry; apply Nat.ltb_lt; lia).
    reflexivity.
Qed.

End Firmware.

(** ** The properties on the sample requests *)

Local Abbreviation sample_get :=
  (handleCodeGet Sample.Float Sample.serializeFloat).
Local Abbreviation sample_post :=
  (handleCodePost Sample.Float Sample.serializeFloat Sample.deserializeJson).
Local Abbreviation sample_load :=
  (loadCode Sample.Float Sample.deserializeJson).
Local Abbreviation sample_run :=
  (run Sample.Float Sample.serializeFloat Sample.deserializeJson).

(** Decides [valid_code] on a literal. *)
Ltac decide_valid_code :=
  first [ apply format_test_valid; reflexivity
        | apply format_test_invalid; reflexivity ].


(** The change of the specification: 1234 to 56789, then GET. *)
Lemma post_success_roundtrip_witness :
  exists plain d,
    assoc "plain" [("plain", Sample.body_change)] = Some plain
    /\ Sample.deserializeJson 256 plain = Some d
    /\ valid_code (field d "new")
    /\ masterCode (exec sample_post
                        (Sample.world "1234" [("plain", Sample.body_change)]))
       = field d "new"
    /\ assoc FILE_CODE
             (files (exec sample_post
                          (Sample.world "1234"
                                        [("plain", Sample.body_change)])))
       = Some (cpp "{'code':'" ++ field d "new" ++ cpp "'}")
    /\ forall args ok,
        sent (exec sample_get
                   (set_open_ok ok
                      (set_currentArgs args
                         (exec sample_post
                               (Sample.world "1234"
                                  [("plain", Sample.body_change)])))))
        = (sent (exec sample_post
                      (Sample.world "1234" [("plain", Sample.body_change)]))
           ++ [mkResponse 200 "application/json" CORS_HEADERS
                 (cpp "{'set':true,'len':"
                      ++ string_of_nat (String.length (field d "new"))
                      ++ "}")])%list.
Proof.
  apply (post_success_roundtrip
           Sample.Float Sample.serializeFloat Sample.deserializeJson
           (Sample.world "1234" [("plain", Sample.body_change)])
           (json_response (Sample.world "1234" [("plain", Sample.body_change)])
                          200 (cpp "{'ok':true}"))).
  - reflexivity.
  - reflexivity.
Defined.




(** A POST without a body, and one whose body is not JSON. *)
Lemma post_error_bodies_witness :
  sent (exec sample_post (Sample.world "1234" []))
  = [json_response (Sample.world "1234" []) 400
       (cpp "{'ok':false,'err':'no_body'}")]
  /\ sent (exec sample_post (Sample.world "1234" [("plain", "code=1")]))
     = [json_response (Sample.world "1234" [("plain", "code=1")]) 400
          (cpp "{'ok':false,'err':'json'}")].
Proof.
  split.
  - apply (post_error_bodies
             Sample.Float Sample.serializeFloat Sample.deserializeJson
             (Sample.world "1234" [])).
    reflexivity.
  - apply (proj1 (proj2 (post_error_bodies
                           Sample.Float Sample.serializeFloat
                           Sample.deserializeJson
                           (Sample.world "1234" [("plain", "code=1")])))
             "code=1").
    + reflexivity.
    + reflexivity.
Defined.

(** The body of the [no_body] error is not the bare [err] object. *)
Lemma post_no_body_has_ok_member :
  assoc "plain" (currentArgs (Sample.world "1234" [])) = None
  /\ map body (sent (exec sample_post (Sample.world "1234" [])))
     = [cpp "{'ok':false,'err':'no_body'}"]
  /\ cpp "{'ok':false,'err':'no_body'}" <> cpp "{'err':'no_body'}".
Proof. repeat split. discriminate. Qed.


(** GET on a device whose code is 1234: the length fits, so [len] is 4. *)
Lemma get_reports_code_witness :
  exists (b : bool) (n : Z),
    sent (exec sample_get (Sample.world "1234" []))
    = [json_response (Sample.world "1234" []) 200
         (cpp "{'set':" ++ string_of_bool b ++ cpp ",'len':"
              ++ string_of_Z n ++ "}")]
    /\ (b = true <-> "1234" <> "")
    /\ n = 4%Z.
Proof.
  destruct (get_reports_code Sample.Float Sample.serializeFloat
                             (Sample.world "1234" []))
    as ((b & n & Hsent & Hset & _ & Hlen) & _).
  exists b, n. split; [exact Hsent|]. split; [exact Hset|].
  apply Hlen. unfold INT_MAX. cbn. lia.
Defined.

(** C8, at a good record file: the file is there, opens and parses to a
    document with the string 1234 under [code]; [loadCode] returns false
    and the in-memory code stays empty, where the claim has it return
    success with the code set to 1234. *)
Theorem loadCode_fails_on_good_record :
  assoc FILE_CODE (files (Sample.world_with_file Sample.file_1234))
  = Some Sample.file_1234
  /\ open_ok (Sample.world_with_file Sample.file_1234) = true
  /\ Sample.deserializeJson 128 Sample.file_1234 = Some Sample.doc_file_1234
  /\ getMember Sample.doc_file_1234 "code" = JString "1234"
  /\ eval sample_load (Sample.world_with_file Sample.file_1234) = false
  /\ masterCode (exec sample_load (Sample.world_with_file Sample.file_1234))
     = ""
  /\ exec sample_load (Sample.world_with_file Sample.file_1234)
     = Sample.world_with_file Sample.file_1234.
Proof. repeat split. Qed.

(** The POST route on a device with a stale header in the queue. *)
Lemma cors_on_every_response_witness :
  exists r,
    sent (exec sample_post
               (mkWorld "" [] true [] [("X-Stale", "1")] [] []))
    = [r]
    /\ incl CORS_HEADERS (headers r).
Proof.
  apply (proj2 (cors_on_every_response
                  Sample.Float Sample.serializeFloat Sample.deserializeJson)
           (mkRoute "/api/code" HTTP_POST sample_post)
           (mkWorld "" [] true [] [("X-Stale", "1")] [] [])).
  right; left. reflexivity.
Defined.

(** A run: GET, first-time setup, a change, OPTIONS, then a malformed
    request while the file system refuses to open files. *)
Lemma run_preserves_code_invariant_witness :
  code_ok (masterCode
             (sample_run
                [ mkEvent Sample.get true;
                  mkEvent (Sample.post Sample.body_first) true;
                  mkEvent (Sample.post Sample.body_change) true ]
                (Sample.world "" [])))
  /\ (masterCode
        (sample_run
           [ mkEvent Sample.get true;
             mkEvent (Sample.post Sample.body_first) true;
             mkEvent (Sample.post Sample.body_change) true ]
           (Sample.world "" [])) <> "" ->
      masterCode
        (sample_run
           ([ mkEvent Sample.get true;
              mkEvent (Sample.post Sample.body_first) true;
              mkEvent (Sample.post Sample.body_change) true ]
            ++ [ mkEvent Sample.options true;
                 mkEvent (Sample.post Sample.body_number) false ])
           (Sample.world "" [])) <> "").
Proof.
  apply (run_preserves_code_invariant
           Sample.Float Sample.serializeFloat Sample.deserializeJson).
  reflexivity.
Defined.

(** ** The scenarios of the specification, evaluated *)

Example scenario_first_setup :
  map (fun r => (status r, body r))
      (sent (sample_run
               [ mkEvent Sample.get true;
                 mkEvent (Sample.post Sample.body_first) true;
                 mkEvent Sample.get true ]
               (Sample.world "" [])))
  = [ (200%Z, cpp "{'set':false,'len':0}");
      (200%Z, cpp "{'ok':true}");
      (200%Z, cpp "{'set':true,'len':4}") ].
Proof. reflexivity. Qed.

Example scenario_change :
  let w := sample_run
             [ mkEvent (Sample.post Sample.body_wrong) true;
               mkEvent (Sample.post Sample.body_change) true;
               mkEvent Sample.get true;
               mkEvent Sample.options true ]
             (Sample.world "1234" []) in
  map (fun r => (status r, body r)) (sent w)
  = [ (403%Z, cpp "{'ok':false,'err':'current'}");
      (200%Z, cpp "{'ok':true}");
      (200%Z, cpp "{'set':true,'len':5}");
      (204%Z, "") ]
  /\ masterCode w = "56789"
  /\ files w = [("/code.json", cpp "{'code':'56789'}")].
Proof. repeat split. Qed.

Example scenario_save_refused :
  let w := sample_run [ mkEvent (Sample.post Sample.body_change) false ]
                      (Sample.world "1234" []) in
  map (fun r => (status r, body r)) (sent w)
  = [ (500%Z, cpp "{'ok':false,'err':'save'}") ]
  /\ masterCode w = "1234"
  /\ files w = [].
Proof. repeat split. Qed.

Example scenario_reload :
  let w := sample_run [ mkEvent (Sample.post Sample.body_first) true ]
                      (Sample.world "" []) in
  assoc FILE_CODE (files w) = Some (cpp "{'code':'1234'}")
  /\ eval sample_load (set_masterCode "" w) = false
  /\ masterCode (exec sample_load (set_masterCode "" w)) = "".
Proof. repeat split. Qed.

(** ** The further properties on the sample requests *)

Local Abbreviation sample_save :=
  (saveCode Sample.Float Sample.serializeFloat).
Local Abbreviation sample_step :=
  (step Sample.Float Sample.serializeFloat Sample.deserializeJson).

(** Saving 1234 over an older record, beside another file. *)
Lemma saveCode_overwrites_record_witness :
  eval (sample_save "1234")
       (mkWorld "0000" [("/wifi.json", "{}"); ("/code.json", "old")] true []
                [] [] [])
  = true
  /\ assoc "/code.json"
           (files (exec (sample_save "1234")
                        (mkWorld "0000"
                                 [("/wifi.json", "{}"); ("/code.json", "old")]
                                 true [] [] [] [])))
     = Some (cpp "{'code':'1234'}")
  /\ assoc "/wifi.json"
           (files (exec (sample_save "1234")
                        (mkWorld "0000"
                                 [("/wifi.json", "{}"); ("/code.json", "old")]
                                 true [] [] [] [])))
     = Some "{}".
Proof.
  destruct (saveCode_overwrites_record
              Sample.Float Sample.serializeFloat "1234"
              (mkWorld "0000" [("/wifi.json", "{}"); ("/code.json", "old")]
                       true [] [] [] []))
    as [Hopened _].
  - cbn. lia.
  - destruct Hopened as (Hret & _ & Hfile & Hothers & _); [reflexivity|].
    split; [exact Hret|]. split; [exact Hfile|].
    apply (Hothers "/wifi.json"). discriminate.
Defined.

Lemma saveCode_last_write_wins_witness :
  exec (sample_save "56789") (exec (sample_save "1234") (Sample.world "" []))
  = exec (sample_save "56789") (Sample.world "" []).
Proof.
  apply (saveCode_last_write_wins Sample.Float Sample.serializeFloat).
  reflexivity.
Defined.

(** The record of 1234 is there and parses, and is not loaded. *)
Lemma loadCode_never_succeeds_witness :
  eval sample_load (Sample.world_with_file Sample.file_1234) = false
  /\ masterCode (exec sample_load (Sample.world_with_file Sample.file_1234))
     = "".
Proof.
  apply (proj2 (proj2 (loadCode_never_succeeds
                         Sample.Float Sample.deserializeJson
                         (Sample.world_with_file Sample.file_1234)))
           Sample.file_1234 Sample.doc_file_1234 "1234");
    reflexivity.
Defined.


(** A refused save: 500, and code, files and serial output stay. *)
Lemma post_failure_has_no_effect_witness :
  masterCode
    (exec sample_post
          (mkWorld "1234" [] false [("plain", Sample.body_change)] [] [] []))
  = "1234"
  /\ files
       (exec sample_post
             (mkWorld "1234" [] false [("plain", Sample.body_change)] [] []
                      []))
     = []
  /\ serial
       (exec sample_post
             (mkWorld "1234" [] false [("plain", Sample.body_change)] [] []
                      []))
     = [].
Proof.
  apply (post_failure_has_no_effect
           Sample.Float Sample.serializeFloat Sample.deserializeJson
           (mkWorld "1234" [] false [("plain", Sample.body_change)] [] [] [])
           (json_response
              (mkWorld "1234" [] false [("plain", Sample.body_change)] [] []
                       [])
              500 (cpp "{'ok':false,'err':'save'}"))).
  - reflexivity.
  - discriminate.
Defined.


(** Two codes of four digits give the same GET response. *)
Lemma get_shows_only_length_witness :
  exists content,
    sent (exec sample_get (Sample.world "1234" []))
    = [json_response (Sample.world "1234" []) 200 content]
    /\ sent (exec sample_get (Sample.world "9876" []))
       = [json_response (Sample.world "9876" []) 200 content].
Proof.
  apply (get_shows_only_length Sample.Float Sample.serializeFloat
                               (Sample.world "1234" [])
                               (Sample.world "9876" [])).
  reflexivity.
Defined.

(** A letter at position 2. *)
Lemma isDigits_false_iff_witness : isDigits "12a4" = false.
Proof.
  apply (proj2 (isDigits_false_iff "12a4")).
  exists 2%nat, "a"%char. split; [reflexivity|].
  right. cbn. lia.
Defined.


(** A setup, a refused save and a change, from a new device. *)
Lemma run_keeps_code_in_sync_witness :
  in_sync
    (sample_run
       [ mkEvent (Sample.post Sample.body_first) true;
         mkEvent (Sample.post Sample.body_change) false;
         mkEvent (Sample.post Sample.body_change) true ]
       (Sample.world "" [])).
Proof.
  apply (run_keeps_code_in_sync
           Sample.Float Sample.serializeFloat Sample.deserializeJson).
  left. split; reflexivity.
Defined.

(** A device that starts on the record of 1234: a request with the
    current code 0000 sets the code to 56789. *)
Lemma startup_leaves_setup_open_witness :
  masterCode (exec sample_load (Sample.world_with_file Sample.file_1234)) = ""
  /\ files (exec sample_load (Sample.world_with_file Sample.file_1234))
     = [("/code.json", Sample.file_1234)]
  /\ sent (exec sample_post
                (set_open_ok true
                   (set_currentArgs [("plain", Sample.body_wrong)]
                      (exec sample_load
                            (Sample.world_with_file Sample.file_1234)))))
     = ([] ++
        [json_response
           (set_open_ok true
              (set_currentArgs [("plain", Sample.body_wrong)]
                 (exec sample_load
                       (Sample.world_with_file Sample.file_1234))))
           200 (cpp "{'ok':true}")])%list
  /\ masterCode
       (exec sample_post
             (set_open_ok true
                (set_currentArgs [("plain", Sample.body_wrong)]
                   (exec sample_load
                         (Sample.world_with_file Sample.file_1234)))))
     = "56789".
Proof.
  apply (startup_leaves_setup_open
           Sample.Float Sample.serializeFloat Sample.deserializeJson
           (Sample.world_with_file Sample.file_1234)
           [("plain", Sample.body_wrong)] Sample.body_wrong Sample.doc_wrong).
  - reflexivity.
  - reflexivity.
  - reflexivity.
  - decide_valid_code.
  - reflexivity.
Defined.

(** GET after a setup and a change. *)
Lemma get_after_run_witness :
  exists content,
    sent (exec sample_get
               (sample_run
                  [ mkEvent (Sample.post Sample.body_first) true;
                    mkEvent (Sample.post Sample.body_change) true ]
                  (Sample.world "" [])))
    = (sent (sample_run
               [ mkEvent (Sample.post Sample.body_first) true;
                 mkEvent (Sample.post Sample.body_change) true ]
               (Sample.world "" []))
       ++ [json_response
             (sample_run
                [ mkEvent (Sample.post Sample.body_first) true;
                  mkEvent (Sample.post Sample.body_change) true ]
                (Sample.world "" []))
             200 content])%list
    /\ (content = cpp "{'set':false,'len':0}"
        \/ exists n,
             (4 <= n <= 8)%nat
             /\ n = String.length
                      (masterCode
                         (sample_run
                            [ mkEvent (Sample.post Sample.body_first) true;
                              mkEvent (Sample.post Sample.body_change) true ]
                            (Sample.world "" [])))
             /\ content = cpp "{'set':true,'len':" ++ string_of_nat n ++ "}").
Proof.
  apply (get_after_run
           Sample.Float Sample.serializeFloat Sample.deserializeJson
           [ mkEvent (Sample.post Sample.body_first) true;
             mkEvent (Sample.post Sample.body_change) true ]
           (Sample.world "" [])).
  reflexivity.
Defined.
